(** * ActiveLink: a navigation link that reflects the current pathname

    Shallow embedding of [src/components/active-link/ActiveLink.tsx]:

<<
    const ActiveLink = ({ path, label }: ActiveLinkProps) => {
     const pathName =  usePathname();
      return (
        <Link className={`${ style.link } ${ (pathName === path) && style['active-link']}`} href={path}>
          {label}
        </Link>
      );
    };
>>

    The component is a function of its props and of the pathname that the
    [usePathname] hook reads from the host router.  It calls no state hook
    and registers no effect.  The CSS module [ActiveLink.module.css] is not
    part of the sources, so the imported [style] object is a parameter of
    the whole development: a finite map from class names to the generated
    class strings, where a missing key reads as [undefined]. *)

From Stdlib Require Import Ascii.
From stdpp Require Import base strings gmap list.

(** ** The fragment of JavaScript the component evaluates *)

Module JS.

Inductive value : Type :=
| VUndefined
| VBool (b : bool)
| VString (s : string).

(** ToBoolean: [undefined], [false] and the empty string are falsy. *)
Definition ToBoolean (v : value) : bool :=
  match v with
  | VUndefined => false
  | VBool b => b
  | VString s => negb (String.eqb s "")
  end.

(** ToString, as applied to every substitution of a template literal. *)
Definition ToString (v : value) : string :=
  match v with
  | VUndefined => "undefined"
  | VBool true => "true"
  | VBool false => "false"
  | VString s => s
  end.

(** [a === b]: no coercion; values of different types are never equal,
    strings are compared code unit by code unit. *)
Definition strict_eq (a b : value) : value :=
  match a, b with
  | VUndefined, VUndefined => VBool true
  | VBool x, VBool y => VBool (Bool.eqb x y)
  | VString x, VString y => VBool (String.eqb x y)
  | _, _ => VBool false
  end.

(** [a && b]: the left operand itself when it is falsy, else the right. *)
Definition and_op (a b : value) : value :=
  if ToBoolean a then b else a.

(** A template literal is a sequence of literal chunks and substitutions. *)
Inductive part : Type :=
| Quasi (s : string)
| Subst (v : value).

Definition part_string (p : part) : string :=
  match p with
  | Quasi s => s
  | Subst v => ToString v
  end.

Fixpoint template (ps : list part) : string :=
  match ps with
  | [] => ""
  | p :: ps' => part_string p +:+ template ps'
  end.

(** Property read on a CSS-module object: the mapped string, or
    [undefined] when the stylesheet does not define the class. *)
Definition get (o : gmap string string) (key : string) : value :=
  match o !! key with
  | Some s => VString s
  | None => VUndefined
  end.

End JS.

Import JS.

(** ** The host: router context and the [Link] element *)

(** The state of the host router that [usePathname] exposes. *)
Record router : Type := Router { pathname : string }.

Definition usePathname (ctx : router) : string := pathname ctx.

(** The type of a JSX element: the [Link] component imported from
    [next/link], or an intrinsic tag such as ['main'] and ['span'] of
    [src/app/page.tsx]. *)
Inductive component : Type :=
| Link
| Intrinsic (tag : string).

(** A JSX element with the props the source passes. *)
Record element : Type := Element {
  type : component;
  className : string;
  href : string;
  children : string
}.

(** ** The component *)

Record ActiveLinkProps : Type := Props {
  path : string;
  label : string
}.

(** The comparison [(pathName === path)] of the source. *)
Definition isActive (pathName path : string) : value :=
  strict_eq (VString pathName) (VString path).

(** The two presentational states of a link. *)
Inductive linkState : Type :=
| Active
| Inactive.

Definition state_of_flag (v : value) : linkState :=
  if ToBoolean v then Active else Inactive.

Section Component.

(** The object imported from [./ActiveLink.module.css]. *)
Variable style : gmap string string.

Definition ActiveLink (props : ActiveLinkProps) (ctx : router) : element :=
  let pathName := usePathname ctx in
  {| type := Link;
     className :=
       template [ Subst (get style "link");
                  Quasi " ";
                  Subst (and_op (isActive pathName (path props))
                                (get style "active-link")) ];
     href := path props;
     children := label props |}.

(** The state an instance shows for a given router state. *)
Definition activeState (props : ActiveLinkProps) (ctx : router) : linkState :=
  state_of_flag (isActive (usePathname ctx) (path props)).

(** *** Re-rendering

    React keeps, for a mounted function component, its props and the
    element it last returned; the component itself stores nothing between
    renders.  Every change of the router's pathname re-invokes the
    component with the same props. *)

Record instance : Type := Instance {
  inst_props : ActiveLinkProps;
  inst_output : element
}.

Definition mount (props : ActiveLinkProps) (ctx : router) : instance :=
  {| inst_props := props; inst_output := ActiveLink props ctx |}.

Definition rerender (i : instance) (ctx : router) : instance :=
  {| inst_props := inst_props i;
     inst_output := ActiveLink (inst_props i) ctx |}.

(** The elements shown after each location change, oldest first. *)
Fixpoint outputs (i : instance) (locs : list string) : list element :=
  match locs with
  | [] => []
  | l :: locs' =>
      let i' := rerender i (Router l) in
      inst_output i' :: outputs i' locs'
  end.

(** Everything an instance mounted at [l0] has shown, oldest first. *)
Definition history (props : ActiveLinkProps) (l0 : string)
    (locs : list string) : list element :=
  let i := mount props (Router l0) in
  inst_output i :: outputs i locs.

End Component.

(** ** The component as a program over hooks

    A function component can do more than compute from its props: through
    hooks it reads the router, and through the state-bearing hooks
    ([useState], [useRef], [useMemo]) it reads and writes cells that React
    keeps for the mounted instance from one render to the next.  A render
    is a program over these operations. *)

Inductive render (A : Type) : Type :=
| Ret (a : A)
| UsePathname (k : string → render A)
| ReadCell (slot : nat) (k : option value → render A)
| WriteCell (slot : nat) (v : value) (k : render A).

Arguments Ret {A} a.
Arguments UsePathname {A} k.
Arguments ReadCell {A} slot k.
Arguments WriteCell {A} slot v k.

Fixpoint render_bind {A B : Type} (f : A → render B) (m : render A)
    : render B :=
  match m with
  | Ret a => f a
  | UsePathname k => UsePathname (fun s => render_bind f (k s))
  | ReadCell i k => ReadCell i (fun c => render_bind f (k c))
  | WriteCell i v k => WriteCell i v (render_bind f k)
  end.

#[global] Instance render_mret : MRet render := @Ret.
#[global] Instance render_mbind : MBind render := @render_bind.

(** One render pass: the router state is read, the cells are threaded. *)
Fixpoint run {A : Type} (m : render A) (ctx : router)
    (cells : gmap nat value) : A * gmap nat value :=
  match m with
  | Ret a => (a, cells)
  | UsePathname k => run (k (pathname ctx)) ctx cells
  | ReadCell i k => run (k (cells !! i)) ctx cells
  | WriteCell i v k => run k ctx (<[i:=v]> cells)
  end.

Module Hooks.

Definition usePathname : render string := UsePathname Ret.

(** The body of the source, statement by statement: one call of
    [usePathname], then the returned element. *)
Definition ActiveLink (style : gmap string string) (props : ActiveLinkProps)
    : render element :=
  pathName ← usePathname;
  mret {| type := Link;
          className :=
            template [ Subst (get style "link");
                       Quasi " ";
                       Subst (and_op (isActive pathName (path props))
                                     (get style "active-link")) ];
          href := path props;
          children := label props |}.

(** A mounted instance: its props, its cells and the element it shows. *)
Record fiber : Type := Fiber {
  fiber_props : ActiveLinkProps;
  fiber_cells : gmap nat value;
  fiber_output : element
}.

Section Machine.

(** Any component taking these props. *)
Variable comp : ActiveLinkProps → render element.

Definition rerender (f : fiber) (ctx : router) : fiber :=
  let r := run (comp (fiber_props f)) ctx (fiber_cells f) in
  {| fiber_props := fiber_props f;
     fiber_cells := r.2;
     fiber_output := r.1 |}.

(** The instance after a series of location changes. *)
Definition navigate (f : fiber) (locs : list string) : fiber :=
  fold_left (fun f' l => rerender f' (Router l)) locs f.

End Machine.

End Hooks.

(** ** Pathnames

    [usePathname] yields the path component of the current URL: it begins
    with a slash and holds neither the query delimiter nor the fragment
    delimiter. *)

Fixpoint mentions (c : Ascii.ascii) (s : string) : bool :=
  match s with
  | EmptyString => false
  | String a r => if Ascii.eqb a c then true else mentions c r
  end.

Definition is_pathname (s : string) : bool :=
  match s with
  | String a r =>
      Ascii.eqb a "/"%char
      && negb (mentions "?"%char r) && negb (mentions "#"%char r)
  | EmptyString => false
  end.

(** The active state at each of a series of locations. *)
Definition observed_states (props : ActiveLinkProps)
    (locs : list string) : list linkState :=
  map (fun l => activeState props (Router l)) locs.

(** A stylesheet object as the CSS-module loader generates it. *)
Definition example_style : gmap string string :=
  {[ "link" := "ActiveLink_link__x1";
     "active-link" := "ActiveLink_active-link__y2" ]}.

(** ** Auxiliary facts *)

Lemma append_nil_r (s : string) : s +:+ "" = s.
Proof.
  induction s as [|a s IH]; [reflexivity|].
  change (String a (s +:+ "") = String a s). by rewrite IH.
Qed.

Lemma append_nonempty_neq (s t : string) : t ≠ "" → s +:+ t ≠ s.
Proof.
  intros Ht H. apply Ht.
  rewrite <- (append_nil_r s) in H at 2.
  by apply (inj (String.append s)) in H.
Qed.

Lemma isActive_true_iff (pathName target : string) :
  isActive pathName target = VBool true ↔ pathName = target.
Proof.
  unfold isActive; simpl. split.
  - intros H. apply String.eqb_eq. congruence.
  - intros ->. by rewrite String.eqb_refl.
Qed.

Lemma isActive_false_iff (pathName target : string) :
  isActive pathName target = VBool false ↔ pathName ≠ target.
Proof.
  unfold isActive; simpl. split.
  - intros H. apply String.eqb_neq. congruence.
  - intros H. apply String.eqb_neq in H. by rewrite H.
Qed.

Section ClassName.

Variable style : gmap string string.

(** The class string of an inactive link. *)
Lemma className_inactive (props : ActiveLinkProps) (ctx : router) :
  usePathname ctx ≠ path props →
  className (ActiveLink style props ctx)
  = ToString (get style "link") +:+ " false".
Proof.
  intros H. apply isActive_false_iff in H.
  unfold ActiveLink; simpl. by rewrite H.
Qed.

(** The class string of an active link. *)
Lemma className_active (props : ActiveLinkProps) (ctx : router) :
  usePathname ctx = path props →
  className (ActiveLink style props ctx)
  = ToString (get style "link") +:+ " "
      +:+ ToString (get style "active-link").
Proof.
  intros H. apply isActive_true_iff in H.
  unfold ActiveLink; simpl. rewrite H; simpl.
  by rewrite append_nil_r.
Qed.

Lemma activeState_inactive (props : ActiveLinkProps) (ctx : router) :
  usePathname ctx ≠ path props → activeState props ctx = Inactive.
Proof.
  intros H. apply isActive_false_iff in H.
  unfold activeState. by rewrite H.
Qed.

Lemma activeState_active (props : ActiveLinkProps) (ctx : router) :
  usePathname ctx = path props → activeState props ctx = Active.
Proof.
  intros H. apply isActive_true_iff in H.
  unfold activeState. by rewrite H.
Qed.

End ClassName.

Lemma outputs_map (style : gmap string string) (i : instance)
    (locs : list string) :
  outputs style i locs
  = map (fun l => ActiveLink style (inst_props i) (Router l)) locs.
Proof.
  revert i. induction locs as [|l locs IH]; intros i; [reflexivity|].
  simpl. f_equal. by rewrite IH.
Qed.

Lemma className_cases (style : gmap string string)
    (props : ActiveLinkProps) (ctx : router) :
  className (ActiveLink style props ctx)
  = if bool_decide (usePathname ctx = path props)
    then ToString (get style "link") +:+ " "
           +:+ ToString (get style "active-link")
    else ToString (get style "link") +:+ " false".
Proof.
  case_bool_decide.
  - by apply className_active.
  - by apply className_inactive.
Qed.

Lemma activeState_cases (props : ActiveLinkProps) (ctx : router) :
  activeState props ctx
  = if bool_decide (usePathname ctx = path props) then Active else Inactive.
Proof.
  case_bool_decide.
  - by apply activeState_active.
  - by apply activeState_inactive.
Qed.

Lemma active_inactive_className_eq (base act : string) :
  base +:+ " " +:+ act = base +:+ " false" ↔ act = "false".
Proof.
  split.
  - intros H. apply (inj (String.append base)) in H.
    by apply (inj (String.append " ")) in H.
  - by intros ->.
Qed.

(** The whole element of an inactive link. *)
Lemma inactive_element (style : gmap string string)
    (target lbl loc : string) :
  loc ≠ target →
  ActiveLink style (Props target lbl) (Router loc)
  = {| type := Link;
       className := ToString (get style "link") +:+ " false";
       href := target;
       children := lbl |}.
Proof.
  intros H.
  pose proof (className_inactive style (Props target lbl) (Router loc) H)
    as Hc.
  destruct (ActiveLink style (Props target lbl) (Router loc)) eqn:E.
  unfold ActiveLink in E. injection E as <- <- <- <-.
  simpl in Hc. by rewrite <- Hc.
Qed.

(** The whole element of an active link. *)
Lemma active_element (style : gmap string string) (target lbl : string) :
  ActiveLink style (Props target lbl) (Router target)
  = {| type := Link;
       className := ToString (get style "link") +:+ " "
                      +:+ ToString (get style "active-link");
       href := target;
       children := lbl |}.
Proof.
  pose proof (className_active style (Props target lbl) (Router target)
                eq_refl) as Hc.
  destruct (ActiveLink style (Props target lbl) (Router target)) eqn:E.
  unfold ActiveLink in E. injection E as <- <- <- <-.
  simpl in Hc. by rewrite <- Hc.
Qed.

(** ** The active flag *)

(** C1: for every pair (target, currentLocation) the active flag the
    component derives is the boolean of exact string equality of the two,
    and the rendered class attribute follows it: the active class string is
    rendered exactly at equality (or when the stylesheet's active class is
    itself the text "false").  A longer path with the target as prefix, a
    different letter case and a trailing slash all render the inactive
    class string. *)
Theorem ActiveLink_active_iff_exact_equality (style : gmap string string)
    (target lbl currentLocation : string) :
  let e := ActiveLink style (Props target lbl) (Router currentLocation) in
  let base := ToString (get style "link") in
  let act := ToString (get style "active-link") in
  isActive currentLocation target
  = VBool (bool_decide (target = currentLocation))
  ∧ className e
    = (if bool_decide (target = currentLocation)
       then base +:+ " " +:+ act else base +:+ " false")
  ∧ (className e = base +:+ " " +:+ act
     ↔ target = currentLocation ∨ act = "false")
  ∧ className (ActiveLink style (Props "/about" lbl) (Router "/about/team"))
    = base +:+ " false"
  ∧ className (ActiveLink style (Props "/about" lbl) (Router "/About"))
    = base +:+ " false"
  ∧ className (ActiveLink style (Props "/about" lbl) (Router "/about/"))
    = base +:+ " false".
Proof.
  cbv zeta.
  assert (∀ A B C D : Prop, A → B → C → D → A ∧ B ∧ C ∧ D) as conj4
    by tauto.
  apply conj4; clear conj4.
  - case_bool_decide as H.
    + by apply isActive_true_iff.
    + apply isActive_false_iff. congruence.
  - rewrite className_cases. simpl.
    repeat case_bool_decide; congruence.
  - rewrite className_cases. simpl. case_bool_decide as H.
    + split; [intros _; left; congruence | done].
    + split.
      * intros E. right. symmetry in E.
        by apply active_inactive_className_eq in E.
      * intros [E | E]; [congruence |].
        symmetry. by apply active_inactive_className_eq.
  - by rewrite !className_inactive.
Qed.

(** C9: with the empty string as target the link is active exactly when
    the current location is the empty string too; at the empty location
    the comparison yields true and the element carries the base class
    followed by the active class. *)
Theorem empty_target_active_iff_empty_location (style : gmap string string)
    (lbl loc : string) :
  (activeState (Props "" lbl) (Router loc) = Active ↔ loc = "")
  ∧ className (ActiveLink style (Props "" lbl) (Router loc))
    = (if bool_decide (loc = "")
       then ToString (get style "link") +:+ " "
              +:+ ToString (get style "active-link")
       else ToString (get style "link") +:+ " false")
  ∧ isActive "" "" = VBool true
  ∧ ActiveLink style (Props "" lbl) (Router "")
    = {| type := Link;
         className := ToString (get style "link") +:+ " "
                        +:+ ToString (get style "active-link");
         href := "";
         children := lbl |}.
Proof.
  split; [|split; [|split]].
  - rewrite activeState_cases. simpl. by case_bool_decide.
  - by rewrite className_cases.
  - reflexivity.
  - apply active_element.
Qed.

(** ** The class attribute *)

(** C10: whenever the comparison is false, the class attribute is the base
    class followed by a space and the text "false", the stringified left
    operand of [&&], and this differs from the base class alone. *)
Theorem inactive_className_has_false (style : gmap string string)
    (props : ActiveLinkProps) (ctx : router) :
  isActive (usePathname ctx) (path props) = VBool false →
  className (ActiveLink style props ctx)
  = ToString (get style "link") +:+ " false"
  ∧ className (ActiveLink style props ctx) ≠ ToString (get style "link").
Proof.
  intros H. apply isActive_false_iff in H.
  rewrite (className_inactive style props ctx H).
  split; [reflexivity|]. by apply append_nonempty_neq.
Qed.

Lemma inactive_className_has_false_witness :
  isActive "/" "/about" = VBool false
  ∧ className (ActiveLink example_style (Props "/about" "About Page")
                 (Router "/"))
    = ToString (get example_style "link") +:+ " false"
  ∧ className (ActiveLink example_style (Props "/about" "About Page")
                 (Router "/"))
    ≠ ToString (get example_style "link").
Proof.
  split; [reflexivity|].
  apply (inactive_className_has_false example_style
           (Props "/about" "About Page") (Router "/")).
  reflexivity.
Defined.

Example inactive_className_example :
  className (ActiveLink example_style (Props "/about" "About Page")
               (Router "/"))
  = "ActiveLink_link__x1 false".
Proof. vm_compute. reflexivity. Qed.

Example active_className_example :
  className (ActiveLink example_style (Props "/about" "About Page")
               (Router "/about"))
  = "ActiveLink_link__x1 ActiveLink_active-link__y2".
Proof. vm_compute. reflexivity. Qed.

Example missing_class_example :
  className (ActiveLink ∅ (Props "/about" "About Page") (Router "/about"))
  = "undefined undefined".
Proof. vm_compute. reflexivity. Qed.

(** C2: at target "/about" and current location "/" the link is inactive,
    yet its class attribute is the base class with the extra token "false"
    appended, not the base class alone. *)
Theorem inactive_className_not_base_alone (style : gmap string string)
    (lbl : string) :
  let e := ActiveLink style (Props "/about" lbl) (Router "/") in
  activeState (Props "/about" lbl) (Router "/") = Inactive
  ∧ className e = ToString (get style "link") +:+ " false"
  ∧ className e ≠ ToString (get style "link").
Proof.
  cbv zeta. split; [reflexivity|].
  rewrite className_inactive by done.
  split; [reflexivity|]. by apply append_nonempty_neq.
Qed.

(** ** Empty and malformed targets *)

Lemma is_pathname_neq (target loc : string) :
  is_pathname target = false → is_pathname loc = true → loc ≠ target.
Proof. intros Ht Hl ->. congruence. Qed.

(** C3: for an empty or malformed target, one that is not a pathname, the
    component returns its [Link] element all the same, and at every
    pathname the router yields the link is inactive. *)
Theorem malformed_target_never_active (style : gmap string string)
    (target lbl loc : string) :
  is_pathname target = false →
  is_pathname loc = true →
  activeState (Props target lbl) (Router loc) = Inactive
  ∧ ActiveLink style (Props target lbl) (Router loc)
    = {| type := Link;
         className := ToString (get style "link") +:+ " false";
         href := target;
         children := lbl |}.
Proof.
  intros Ht Hl. pose proof (is_pathname_neq target loc Ht Hl) as Hne.
  split.
  - by apply activeState_inactive.
  - by apply inactive_element.
Qed.

Lemma malformed_target_never_active_witness :
  is_pathname "" = false
  ∧ is_pathname "/" = true
  ∧ activeState (Props "" "Home") (Router "/") = Inactive
  ∧ ActiveLink example_style (Props "" "Home") (Router "/")
    = {| type := Link;
         className := ToString (get example_style "link") +:+ " false";
         href := "";
         children := "Home" |}.
Proof.
  split; [reflexivity|]. split; [reflexivity|].
  apply (malformed_target_never_active example_style "" "Home" "/");
    reflexivity.
Defined.

Example malformed_targets :
  is_pathname "about" = false
  ∧ is_pathname "https://example.com/about" = false
  ∧ is_pathname "/about?tab=team" = false
  ∧ is_pathname "/about#team" = false
  ∧ is_pathname "/about/team" = true.
Proof. by repeat split. Qed.

(** ** Rendering over time *)

Lemma run_ActiveLink (style : gmap string string) (props : ActiveLinkProps)
    (ctx : router) (cells : gmap nat value) :
  run (Hooks.ActiveLink style props) ctx cells
  = (ActiveLink style props ctx, cells).
Proof. reflexivity. Qed.

Lemma navigate_ActiveLink (style : gmap string string) (f : Hooks.fiber)
    (locs : list string) :
  Hooks.fiber_props (Hooks.navigate (Hooks.ActiveLink style) f locs)
  = Hooks.fiber_props f
  ∧ Hooks.fiber_cells (Hooks.navigate (Hooks.ActiveLink style) f locs)
    = Hooks.fiber_cells f.
Proof.
  revert f. induction locs as [|l locs IH]; intros f; [done|].
  unfold Hooks.navigate in *. simpl.
  destruct (IH (Hooks.rerender (Hooks.ActiveLink style) f (Router l)))
    as [-> ->].
  done.
Qed.

(** C4: the component reads nothing but its props and the router's
    pathname and keeps nothing from one render to the next.  Whatever the
    cells of the instance hold, a render returns the element that is the
    function of (path, label, pathname) and leaves the cells as they are;
    so rendering again with unchanged inputs gives the identical element,
    and after any series of location changes, from any earlier state of
    the instance, the element shown is the one for the latest location. *)
Theorem render_is_function_of_props_and_location
    (style : gmap string string) (props : ActiveLinkProps) :
  (∀ ctx cells,
     run (Hooks.ActiveLink style props) ctx cells
     = (ActiveLink style props ctx, cells))
  ∧ (∀ ctx cells cells',
       (run (Hooks.ActiveLink style props) ctx cells).1
       = (run (Hooks.ActiveLink style props) ctx cells').1)
  ∧ (∀ cells shown locs l,
       Hooks.navigate (Hooks.ActiveLink style)
         (Hooks.Fiber props cells shown) (locs ++ [l])
       = Hooks.Fiber props cells (ActiveLink style props (Router l))).
Proof.
  split; [|split].
  - intros ctx cells. apply run_ActiveLink.
  - intros ctx cells cells'. by rewrite !run_ActiveLink.
  - intros cells shown locs l.
    unfold Hooks.navigate. rewrite fold_left_app. simpl.
    fold (Hooks.navigate (Hooks.ActiveLink style)
            (Hooks.Fiber props cells shown) locs).
    destruct (navigate_ActiveLink style (Hooks.Fiber props cells shown) locs)
      as [Hp Hc].
    unfold Hooks.rerender. rewrite run_ActiveLink. simpl.
    simpl in Hp, Hc. by rewrite Hp, Hc.
Qed.

(** The model does tell a component that keeps its flag from one that does
    not: a component that stores the first pathname it sees in a cell and
    compares against the stored one shows a stale state after a location
    change. *)
Example stale_flag_is_expressible :
  ∃ comp : ActiveLinkProps → render element,
    Hooks.fiber_output
      (Hooks.navigate comp
         (Hooks.Fiber (Props "/about" "About Page") ∅
            (ActiveLink example_style (Props "/about" "About Page")
               (Router "/")))
         ["/about"; "/"])
    ≠ ActiveLink example_style (Props "/about" "About Page") (Router "/").
Proof.
  exists (fun props =>
    ReadCell 0 (fun c =>
      match c with
      | Some (VString seen) =>
          Ret (ActiveLink example_style props (Router seen))
      | _ =>
          UsePathname (fun p =>
            WriteCell 0 (VString p)
              (Ret (ActiveLink example_style props (Router p))))
      end)).
  vm_compute. discriminate.
Qed.

(** C5: for locations L0, L1, L2 of which only L1 is the target, the
    states shown are Inactive, Active, Inactive, and the three rendered
    class strings are the inactive, the active and the inactive one. *)
Theorem reactivity_sequence (style : gmap string string)
    (target lbl L0 L1 L2 : string) :
  L0 ≠ target → L1 = target → L2 ≠ target →
  observed_states (Props target lbl) [L0; L1; L2]
  = [Inactive; Active; Inactive]
  ∧ map className (history style (Props target lbl) L0 [L1; L2])
    = [ ToString (get style "link") +:+ " false";
        ToString (get style "link") +:+ " "
          +:+ ToString (get style "active-link");
        ToString (get style "link") +:+ " false" ].
Proof.
  intros H0 -> H2. split.
  - unfold observed_states. cbn [map].
    rewrite (activeState_inactive _ (Router L0)) by done.
    rewrite (activeState_inactive _ (Router L2)) by done.
    by rewrite activeState_active.
  - unfold history. rewrite outputs_map. cbn [map mount inst_output inst_props].
    rewrite (className_inactive style _ (Router L0)) by done.
    rewrite (className_inactive style _ (Router L2)) by done.
    by rewrite className_active.
Qed.

Lemma reactivity_sequence_witness :
  observed_states (Props "/about" "About Page") ["/"; "/about"; "/contact"]
  = [Inactive; Active; Inactive]
  ∧ map className
      (history example_style (Props "/about" "About Page") "/"
         ["/about"; "/contact"])
    = [ ToString (get example_style "link") +:+ " false";
        ToString (get example_style "link") +:+ " "
          +:+ ToString (get example_style "active-link");
        ToString (get example_style "link") +:+ " false" ].
Proof.
  apply (reactivity_sequence example_style "/about" "About Page"
           "/" "/about" "/contact"); [discriminate | reflexivity | discriminate].
Defined.

(** ** The rendered element *)

(** C6: for fixed target and label, the elements rendered at two current
    locations agree on everything but the class attribute: same component,
    same href, same label text. *)
Theorem location_changes_only_className (style : gmap string string)
    (target lbl loc1 loc2 : string) :
  let e1 := ActiveLink style (Props target lbl) (Router loc1) in
  let e2 := ActiveLink style (Props target lbl) (Router loc2) in
  href e1 = href e2
  ∧ children e1 = children e2
  ∧ e1 = {| type := type e2; className := className e1;
            href := href e2; children := children e2 |}.
Proof. cbv zeta. by repeat split. Qed.


(** ** Further properties of the class attribute *)

(** X1: for every stylesheet, props and location the class attribute is one
    of exactly two strings, chosen by whether the location is the path, and
    in neither case is it the base class alone. *)
Theorem className_two_values (style : gmap string string)
    (props : ActiveLinkProps) (ctx : router) :
  className (ActiveLink style props ctx)
  = (if bool_decide (usePathname ctx = path props)
     then ToString (get style "link") +:+ " "
            +:+ ToString (get style "active-link")
     else ToString (get style "link") +:+ " false")
  ∧ className (ActiveLink style props ctx) ≠ ToString (get style "link").
Proof.
  case_bool_decide as H.
  - rewrite className_active by done. split; [reflexivity|].
    by apply append_nonempty_neq.
  - rewrite className_inactive by done. split; [reflexivity|].
    by apply append_nonempty_neq.
Qed.

(** X2: a link rendered at its own target is active whatever the target
    is, and the element is the [Link] to that target with the base class
    followed by the active class. *)
Theorem active_at_own_target (style : gmap string string)
    (target lbl : string) :
  activeState (Props target lbl) (Router target) = Active
  ∧ ActiveLink style (Props target lbl) (Router target)
    = {| type := Link;
         className := ToString (get style "link") +:+ " "
                        +:+ ToString (get style "active-link");
         href := target;
         children := lbl |}.
Proof.
  split.
  - by apply activeState_active.
  - apply active_element.
Qed.

(** X3: when the stylesheet does not define the [active-link] class, an
    active link gets the text "undefined" after the base class. *)
Theorem missing_active_class_undefined (style : gmap string string)
    (props : ActiveLinkProps) (ctx : router) :
  style !! "active-link" = None →
  usePathname ctx = path props →
  className (ActiveLink style props ctx)
  = ToString (get style "link") +:+ " undefined".
Proof.
  intros Hs Hp. rewrite className_active by done.
  unfold get at 2. by rewrite Hs.
Qed.

Lemma missing_active_class_undefined_witness :
  className (ActiveLink {[ "link" := "ActiveLink_link__x1" ]}
               (Props "/about" "About Page") (Router "/about"))
  = ToString (get {[ "link" := "ActiveLink_link__x1" ]} "link")
      +:+ " undefined".
Proof.
  apply (missing_active_class_undefined
           {[ "link" := "ActiveLink_link__x1" ]}
           (Props "/about" "About Page") (Router "/about"));
    vm_compute; reflexivity.
Defined.

(** X4: when the stylesheet does not define the [link] class, the class
    attribute starts with the text "undefined" at every location. *)
Theorem missing_base_class_undefined (style : gmap string string)
    (props : ActiveLinkProps) (ctx : router) :
  style !! "link" = None →
  className (ActiveLink style props ctx)
  = "undefined "
      +:+ (if bool_decide (usePathname ctx = path props)
           then ToString (get style "active-link") else "false").
Proof.
  intros Hs. case_bool_decide as H.
  - rewrite className_active by done. unfold get at 1. by rewrite Hs.
  - rewrite className_inactive by done. unfold get. by rewrite Hs.
Qed.

Lemma missing_base_class_undefined_witness :
  className (ActiveLink ∅ (Props "/about" "About Page") (Router "/"))
  = "undefined "
      +:+ (if bool_decide (usePathname (Router "/")
                           = path (Props "/about" "About Page"))
           then ToString (get ∅ "active-link") else "false").
Proof.
  apply (missing_base_class_undefined ∅
           (Props "/about" "About Page") (Router "/")).
  vm_compute; reflexivity.
Defined.

(** X5: unless the generated active class is the text "false", the class
    attribute tells the two states apart: two renders of a link have the
    same class attribute exactly when they show the same state. *)
Theorem className_determines_state (style : gmap string string)
    (props : ActiveLinkProps) (c1 c2 : router) :
  ToString (get style "active-link") ≠ "false" →
  className (ActiveLink style props c1) = className (ActiveLink style props c2)
  ↔ activeState props c1 = activeState props c2.
Proof.
  intros Hact. rewrite !activeState_cases, !className_cases.
  repeat case_bool_decide; split; try done.
  - intros E. by apply active_inactive_className_eq in E.
  - intros E. symmetry in E. by apply active_inactive_className_eq in E.
Qed.

Lemma className_determines_state_witness :
  className (ActiveLink example_style (Props "/about" "About Page")
               (Router "/"))
  = className (ActiveLink example_style (Props "/about" "About Page")
                 (Router "/contact"))
  ↔ activeState (Props "/about" "About Page") (Router "/")
    = activeState (Props "/about" "About Page") (Router "/contact").
Proof.
  apply (className_determines_state example_style
           (Props "/about" "About Page") (Router "/") (Router "/contact")).
  vm_compute. discriminate.
Defined.

(** X6: when the stylesheet maps [active-link] to the text "false", the
    class attribute is the same at every location, so the link never looks
    different at its target. *)
Theorem active_class_false_collapses (style : gmap string string)
    (props : ActiveLinkProps) (c1 c2 : router) :
  style !! "active-link" = Some "false" →
  className (ActiveLink style props c1) = className (ActiveLink style props c2).
Proof.
  intros Hs. rewrite !className_cases.
  assert (ToString (get style "active-link") = "false") as ->.
  { unfold get. by rewrite Hs. }
  by repeat case_bool_decide.
Qed.

Lemma active_class_false_collapses_witness :
  className (ActiveLink {[ "link" := "a"; "active-link" := "false" ]}
               (Props "/about" "About Page") (Router "/about"))
  = className (ActiveLink {[ "link" := "a"; "active-link" := "false" ]}
                 (Props "/about" "About Page") (Router "/")).
Proof.
  apply (active_class_false_collapses
           {[ "link" := "a"; "active-link" := "false" ]}
           (Props "/about" "About Page") (Router "/about") (Router "/")).
  vm_compute. reflexivity.
Defined.

(** ** Matching is neither by prefix nor by extension *)

(** X7: a location that extends the target by any non-empty suffix renders
    the inactive class string, and so does a location that is the target
    with a non-empty suffix removed. *)
Theorem no_prefix_matching (style : gmap string string)
    (target lbl suffix : string) :
  suffix ≠ "" →
  className (ActiveLink style (Props target lbl) (Router (target +:+ suffix)))
  = ToString (get style "link") +:+ " false"
  ∧ className (ActiveLink style (Props (target +:+ suffix) lbl)
                 (Router target))
    = ToString (get style "link") +:+ " false"
  ∧ activeState (Props target lbl) (Router (target +:+ suffix)) = Inactive
  ∧ activeState (Props (target +:+ suffix) lbl) (Router target) = Inactive.
Proof.
  intros Hs.
  assert (target +:+ suffix ≠ target) as H1 by by apply append_nonempty_neq.
  assert (target ≠ target +:+ suffix) as H2 by congruence.
  split; [by apply className_inactive|].
  split; [by apply className_inactive|].
  split; by apply activeState_inactive.
Qed.

Lemma no_prefix_matching_witness :
  "/team" ≠ ""
  ∧ className (ActiveLink example_style (Props "/about" "About")
                 (Router ("/about" +:+ "/team")))
    = ToString (get example_style "link") +:+ " false"
  ∧ className (ActiveLink example_style (Props ("/about" +:+ "/team") "About")
                 (Router "/about"))
    = ToString (get example_style "link") +:+ " false"
  ∧ activeState (Props "/about" "About") (Router ("/about" +:+ "/team"))
    = Inactive
  ∧ activeState (Props ("/about" +:+ "/team") "About") (Router "/about")
    = Inactive.
Proof.
  split; [discriminate|].
  apply (no_prefix_matching example_style "/about" "About" "/team").
  discriminate.
Defined.

(** ** Several links on one page *)

(** X8: among links whose paths are pairwise different, the link at the
    current location renders the active class string and every link at
    another position renders the inactive one. *)
Theorem at_most_one_active (style : gmap string string)
    (links : list ActiveLinkProps) (ctx : router)
    (i j : nat) (p q : ActiveLinkProps) :
  NoDup (path <$> links) →
  links !! i = Some p → links !! j = Some q → i ≠ j →
  usePathname ctx = path p →
  className (ActiveLink style p ctx)
  = ToString (get style "link") +:+ " "
      +:+ ToString (get style "active-link")
  ∧ className (ActiveLink style q ctx)
    = ToString (get style "link") +:+ " false"
  ∧ activeState q ctx = Inactive.
Proof.
  intros Hnd Hi Hj Hij Hp.
  assert (usePathname ctx ≠ path q) as Hq.
  { intros E. apply Hij.
    apply (NoDup_lookup (path <$> links) i j (usePathname ctx)); [done|..].
    - rewrite list_lookup_fmap, Hi. simpl. congruence.
    - rewrite list_lookup_fmap, Hj. simpl. congruence. }
  split; [by apply className_active|].
  split; [by apply className_inactive | by apply activeState_inactive].
Qed.

Lemma at_most_one_active_witness :
  className (ActiveLink example_style (Props "/about" "About Page")
               (Router "/about"))
  = ToString (get example_style "link") +:+ " "
      +:+ ToString (get example_style "active-link")
  ∧ className (ActiveLink example_style (Props "/" "Home") (Router "/about"))
    = ToString (get example_style "link") +:+ " false"
  ∧ activeState (Props "/" "Home") (Router "/about") = Inactive.
Proof.
  apply (at_most_one_active example_style
           [Props "/" "Home"; Props "/about" "About Page"]
           (Router "/about") 1 0
           (Props "/about" "About Page") (Props "/" "Home")).
  - compute_done.
  - reflexivity.
  - reflexivity.
  - discriminate.
  - reflexivity.
Defined.

(** X9: links with the same path render the same class attribute and href
    at every location, whatever their labels; all links to the current
    location are active together. *)
Theorem same_path_same_state (style : gmap string string)
    (p q : ActiveLinkProps) (ctx : router) :
  path p = path q →
  activeState p ctx = activeState q ctx
  ∧ className (ActiveLink style p ctx) = className (ActiveLink style q ctx)
  ∧ href (ActiveLink style p ctx) = href (ActiveLink style q ctx).
Proof.
  intros E. rewrite !activeState_cases, !className_cases, E.
  by repeat split.
Qed.

Lemma same_path_same_state_witness :
  activeState (Props "/about" "About") (Router "/about")
  = activeState (Props "/about" "Who we are") (Router "/about")
  ∧ className (ActiveLink example_style (Props "/about" "About")
                 (Router "/about"))
    = className (ActiveLink example_style (Props "/about" "Who we are")
                   (Router "/about"))
  ∧ href (ActiveLink example_style (Props "/about" "About") (Router "/about"))
    = href (ActiveLink example_style (Props "/about" "Who we are")
              (Router "/about")).
Proof.
  apply (same_path_same_state example_style (Props "/about" "About")
           (Props "/about" "Who we are") (Router "/about")).
  reflexivity.
Defined.

(** ** Arbitrary series of location changes *)

(** X11: unless the generated active class is the text "false", in any
    series of locations the element rendered at step [k] carries the
    active class string exactly when the [k]-th location is the link's
    path. *)
Theorem history_active_iff_at_target (style : gmap string string)
    (props : ActiveLinkProps) (l0 : string) (locs : list string) (k : nat) :
  ToString (get style "active-link") ≠ "false" →
  (className <$> history style props l0 locs) !! k
  = Some (ToString (get style "link") +:+ " "
            +:+ ToString (get style "active-link"))
  ↔ (l0 :: locs) !! k = Some (path props).
Proof.
  intros Hact. unfold history. rewrite outputs_map.
  change (inst_output (mount style props (Router l0))
          :: map (fun l => ActiveLink style (inst_props
                    (mount style props (Router l0))) (Router l)) locs)
    with ((fun l => ActiveLink style props (Router l)) <$> (l0 :: locs)).
  rewrite !list_lookup_fmap.
  destruct ((l0 :: locs) !! k) as [l|]; [|done].
  change (Some (className (ActiveLink style props (Router l))) = Some
            (ToString (get style "link") +:+ " "
               +:+ ToString (get style "active-link"))
          ↔ Some l = Some (path props)).
  rewrite className_cases. simpl. case_bool_decide as H.
  - split; intros _; congruence.
  - split; intros E; [|congruence].
    exfalso. apply Hact. injection E as E. symmetry in E.
    by apply active_inactive_className_eq in E.
Qed.

Lemma history_active_iff_at_target_witness :
  (className <$> history example_style (Props "/about" "About Page") "/"
                   ["/about"; "/contact"]) !! 1
  = Some (ToString (get example_style "link") +:+ " "
            +:+ ToString (get example_style "active-link"))
  ↔ ("/" :: ["/about"; "/contact"]) !! 1
    = Some (path (Props "/about" "About Page")).
Proof.
  apply (history_active_iff_at_target example_style
           (Props "/about" "About Page") "/" ["/about"; "/contact"] 1).
  vm_compute. discriminate.
Defined.
